(** * helper.py (skill "test-skill-multifile"): the text transformer and
      its command-line guard

    The script defines one function, [process_data], and a module-level
    block that runs only when the file is executed as a program.  The
    embedding keeps the script's shape: Python text is a sequence of code
    points, Python objects are tagged values, and the statements run in a
    monad that threads the interpreter's observable state (the argument
    vector, what has been written to standard output) and can raise.
    Two things belong to the host and are parameters: the Unicode
    uppercase table behind [str.upper], and the set of code points the
    encoding of standard output can hold. *)

From Stdlib Require Import List String Ascii NArith ZArith Bool Lia DecimalString.
From ExtLib Require Import Structures.Monad.
Import ListNotations.
Import MonadNotation.
Local Open Scope monad_scope.

(** ** Text *)

(** A Python [str] is a finite sequence of Unicode code points. *)
Definition pystr : Type := list N.

(** A string literal of the source (all of them are ASCII). *)
Definition lit (s : string) : pystr := map N_of_ascii (list_ascii_of_string s).

(** The line terminator written by [print]. *)
Definition LF : N := 10.

(** ** Objects and exceptions *)

Inductive value : Type :=
| VStr (s : pystr)
| VInt (z : Z)
| VNone.

Inductive exn : Type :=
| AttributeError
| IndexError
| UnicodeEncodeError.

Inductive result (A : Type) : Type :=
| Ok (a : A)
| Raise (e : exn).
Arguments Ok {A} a.
Arguments Raise {A} e.

(** ** Interpreter state *)

(** [dunder_name] is the module's [__name__], [sys_argv] is [sys.argv]
    (program name first), [stdout] is the text written to standard output
    so far.  [calls] is a ghost log: the arguments with which the
    module-level code has entered [process_data], oldest first. *)
Record world : Type := mkWorld {
  dunder_name : pystr;
  sys_argv : list pystr;
  stdout : pystr;
  calls : list value
}.

(** A statement or expression: it runs in a world, ends in a value or an
    exception, and leaves a world.  What was written before an exception
    stays written. *)
Definition py (A : Type) : Type := world -> result A * world.

Definition py_ret {A} (a : A) : py A := fun w => (Ok a, w).

Definition py_bind {A B} (c : py A) (k : A -> py B) : py B :=
  fun w =>
    match c w with
    | (Ok a, w') => k a w'
    | (Raise e, w') => (Raise e, w')
    end.

#[export] Instance Monad_py : Monad py :=
  {| ret := @py_ret; bind := @py_bind |}.

Definition py_raise {A} (e : exn) : py A := fun w => (Raise e, w).

Definition run {A} (c : py A) (w : world) : result A * world := c w.

(** ** Host primitives used by the script *)

Definition ascii_toupper (c : N) : N :=
  if (97 <=? c)%N && (c <=? 122)%N then (c - 32)%N else c.

(** [str(v)], which is also [format(v, "")]. *)
Definition py_str (v : value) : pystr :=
  match v with
  | VStr s => s
  | VInt z => lit (NilZero.string_of_int (Z.to_int z))
  | VNone => lit "None"
  end.

(** [len(l)]. *)
Definition py_len {A} (l : list A) : Z := Z.of_nat (List.length l).

(** [l[i]]: a negative index counts from the end, an index out of range
    raises [IndexError]. *)
Definition list_getitem (l : list pystr) (i : Z) : py value :=
  let j := if (i <? 0)%Z then (i + py_len l)%Z else i in
  if (j <? 0)%Z then py_raise IndexError
  else match nth_error l (Z.to_nat j) with
       | Some s => ret (VStr s)
       | None => py_raise IndexError
       end.

(** Standard output encodes what is written to it, with the host's
    encoding and strict error handling.  Every such encoding holds ASCII;
    [enc] tells which code points beyond ASCII it holds. *)
Definition stream_accepts (enc : N -> bool) (c : N) : bool :=
  if (c <? 128)%N then true else enc c.

Definition stream_encodes (enc : N -> bool) (s : pystr) : bool :=
  forallb (stream_accepts enc) s.

(** [sys.stdout.write(s)]: the text is encoded and appended to the stream;
    a text the stream cannot encode raises [UnicodeEncodeError] and none
    of it is written. *)
Definition stream_write (enc : N -> bool) (s : pystr) : py unit :=
  fun w =>
    if stream_encodes enc s
    then (Ok tt, mkWorld (dunder_name w) (sys_argv w) (stdout w ++ s) (calls w))
    else (Raise UnicodeEncodeError, w).

(** [print(v)]: [str(v)] is written, then the line terminator. *)
Definition print (enc : N -> bool) (v : value) : py unit :=
  stream_write enc (py_str v) ;;
  stream_write enc [LF].

(** Ghost step: note in [calls] that [process_data] is entered with [v]. *)
Definition log_call (v : value) : py unit :=
  fun w =>
    (Ok tt, mkWorld (dunder_name w) (sys_argv w) (stdout w) (calls w ++ [v])).

Definition get_dunder_name : py pystr := fun w => (Ok (dunder_name w), w).
Definition get_sys_argv : py (list pystr) := fun w => (Ok (sys_argv w), w).

Definition pystr_eqb (a b : pystr) : bool :=
  if list_eq_dec N.eq_dec a b then true else false.

Section Helper.

(** The host's Unicode database: the full uppercase mapping of a code point
    outside ASCII (one code point may map to several, as U+00DF does). *)
Variable unicode_upper : N -> list N.

(** The host's encoding of standard output: the code points beyond ASCII
    it can encode. *)
Variable stdout_enc : N -> bool.

Definition to_upper_full (c : N) : list N :=
  if (c <? 128)%N then [ascii_toupper c] else unicode_upper c.

(** [str.upper]: every code point is replaced by its full uppercase
    mapping. *)
Definition str_upper (s : pystr) : pystr := flat_map to_upper_full s.

(** [v.upper()]: only text has the method among the modelled objects. *)
Definition call_upper (v : value) : py value :=
  match v with
  | VStr s => ret (VStr (str_upper s))
  | VInt _ | VNone => py_raise AttributeError
  end.

(** ** The script *)

(** [def process_data(input_text):
       return f"Processed: {input_text.upper()}"] *)
Definition process_data (input_text : value) : py value :=
  u <- call_upper input_text ;;
  ret (VStr (lit "Processed: " ++ py_str u)).

(** The call [process_data(v)] as the module-level code makes it. *)
Definition invoke_process_data (v : value) : py value :=
  log_call v ;;
  process_data v.

Definition usage_message : pystr := lit "Usage: python helper.py <input_text>".

(** The block under [if __name__ == "__main__":].  Its [import sys] binds
    the module and touches nothing of the modelled state.

    [if len(sys.argv) > 1:
        result = process_data(sys.argv[1])
        print(result)
    else:
        print("Usage: python helper.py <input_text>")] *)
Definition main_block : py unit :=
  argv <- get_sys_argv ;;
  if (py_len argv >? 1)%Z then
    argv' <- get_sys_argv ;;
    arg <- list_getitem argv' 1 ;;
    result <- invoke_process_data arg ;;
    print stdout_enc result
  else
    print stdout_enc (VStr usage_message).

(** The module body: the [def], then the guarded block. *)
Definition module_body : py unit :=
  name <- get_dunder_name ;;
  if pystr_eqb name (lit "__main__") then main_block else ret tt.

(** Exit status of the interpreter after running the script: 0 on normal
    completion, 1 on an uncaught exception (the script has no [try] and
    never calls [sys.exit]). *)
Definition exit_status (r : result unit) : Z :=
  match r with
  | Ok _ => 0%Z
  | Raise _ => 1%Z
  end.

(** The world in which the script starts when run as a program with the
    given argument vector: nothing written, nothing called. *)
Definition standalone (argv : list pystr) : world :=
  mkWorld (lit "__main__") argv [] [].

End Helper.

(** Number of line terminators in a text: the lines a stream holds once
    the text has been written to it. *)
Definition count_lines (out : pystr) : nat := count_occ N.eq_dec out LF.

(** UTF-8 with strict error handling, the usual encoding of standard
    output: every code point up to U+10FFFF but the surrogates U+D800 to
    U+DFFF.  A byte of the command line that is not valid UTF-8 reaches
    [sys.argv] as such a surrogate (byte 0xFF as U+DCFF). *)
Definition utf8_strict (c : N) : bool :=
  (c <=? 1114111)%N && negb ((55296 <=? c)%N && (c <=? 57343)%N).

(** An ASCII stream: nothing beyond ASCII can be encoded. *)
Definition ascii_only (c : N) : bool := false.

(** [s.isascii()]: every code point of the text is below 128. *)
Definition str_isascii (s : pystr) : bool := forallb (fun c => (c <? 128)%N) s.

(** A lowercase ASCII letter, "a" to "z". *)
Definition ascii_islower (c : N) : bool := (97 <=? c)%N && (c <=? 122)%N.

(** A sample of the host database, enough to run examples: U+00DF maps to
    "SS", U+00E9 to U+00C9, every other code point to itself. *)
Definition sample_unicode_upper (c : N) : list N :=
  if (c =? 223)%N then [83; 83]%N
  else if (c =? 233)%N then [201]%N
  else [c].

(** ** Running the script on concrete inputs *)

Example process_data_abc :
  run (process_data sample_unicode_upper (VStr (lit "abc"))) (standalone [])
  = (Ok (VStr (lit "Processed: ABC")), standalone []).
Proof. reflexivity. Qed.

Example process_data_mixed :
  fst (run (process_data sample_unicode_upper (VStr (lit "MiXeD123"))) (standalone []))
  = Ok (VStr (lit "Processed: MIXED123")).
Proof. reflexivity. Qed.

(** "stra" U+00DF "e": the text grows by one code point. *)
Example process_data_sharp_s :
  fst (run (process_data sample_unicode_upper
              (VStr (lit "stra" ++ [223%N] ++ lit "e"))) (standalone []))
  = Ok (VStr (lit "Processed: STRASSE")).
Proof. reflexivity. Qed.

Example process_data_none :
  fst (run (process_data sample_unicode_upper VNone) (standalone []))
  = Raise AttributeError.
Proof. reflexivity. Qed.

Example list_getitem_out_of_range :
  fst (run (list_getitem [lit "helper.py"] 1) (standalone [])) = Raise IndexError.
Proof. reflexivity. Qed.

Example list_getitem_last :
  fst (run (list_getitem [lit "helper.py"; lit "x"] (-1)) (standalone []))
  = Ok (VStr (lit "x")).
Proof. reflexivity. Qed.

Example imported_module_is_silent :
  run (module_body sample_unicode_upper utf8_strict)
      (mkWorld (lit "helper") [lit "prog"; lit "x"] [] [])
  = (Ok tt, mkWorld (lit "helper") [lit "prog"; lit "x"] [] []).
Proof. reflexivity. Qed.

Example run_hello :
  run (module_body sample_unicode_upper utf8_strict)
      (standalone [lit "helper.py"; lit "hello"])
  = (Ok tt, mkWorld (lit "__main__") [lit "helper.py"; lit "hello"]
                    (lit "Processed: HELLO" ++ [LF]) [VStr (lit "hello")]).
Proof. reflexivity. Qed.

(** U+00E9 uppercases to U+00C9, which an ASCII stream cannot encode. *)
Example run_accent_on_ascii_stream :
  run (module_body sample_unicode_upper ascii_only)
      (standalone [lit "helper.py"; [233%N]])
  = (Raise UnicodeEncodeError,
     mkWorld (lit "__main__") [lit "helper.py"; [233%N]] [] [VStr [233%N]]).
Proof. reflexivity. Qed.

Example run_accent_on_utf8_stream :
  stdout (snd (run (module_body sample_unicode_upper utf8_strict)
                   (standalone [lit "helper.py"; [233%N]])))
  = lit "Processed: " ++ [201%N; LF].
Proof. reflexivity. Qed.

(** ** Facts about the primitives *)

Lemma count_lines_app (a b : pystr) :
  count_lines (a ++ b) = count_lines a + count_lines b.
Proof. unfold count_lines. apply count_occ_app. Qed.

Lemma count_lines_no_LF (msg : pystr) :
  ~ In LF msg -> count_lines msg = 0.
Proof. unfold count_lines. intros H. now apply count_occ_not_In. Qed.

(** ASCII uppercasing creates no line feed. *)
Lemma ascii_toupper_LF (c : N) : ascii_toupper c = LF -> c = LF.
Proof.
  unfold ascii_toupper, LF.
  destruct (N.leb_spec 97 c); destruct (N.leb_spec c 122); simpl; lia.
Qed.

Lemma ascii_toupper_below (c : N) : (c < 128)%N -> (ascii_toupper c < 128)%N.
Proof.
  unfold ascii_toupper.
  destruct (N.leb_spec 97 c); destruct (N.leb_spec c 122); cbn [andb]; lia.
Qed.

Lemma map_toupper_isascii (s : pystr) :
  Forall (fun c => (c < 128)%N) s ->
  Forall (fun c => (c < 128)%N) (map ascii_toupper s).
Proof.
  induction 1 as [|c s Hc _ IH]; cbn [map]; constructor; auto.
  now apply ascii_toupper_below.
Qed.

Lemma pystr_eqb_neq (a b : pystr) : a <> b -> pystr_eqb a b = false.
Proof.
  unfold pystr_eqb. intros H. destruct (list_eq_dec N.eq_dec a b); congruence.
Qed.

(** With at most the program name in the vector, [len(sys.argv) > 1] is
    false. *)
Lemma py_len_short {A} (l : list A) :
  tl l = [] -> (py_len l >? 1)%Z = false.
Proof.
  destruct l as [|x [|y l]]; simpl; intros H; try reflexivity; discriminate.
Qed.

Lemma py_len_long {A} (x y : A) (l : list A) :
  (py_len (x :: y :: l) >? 1)%Z = true.
Proof.
  unfold py_len. simpl List.length.
  apply Z.gtb_lt. lia.
Qed.

(** *** The stream *)

(** Every stream encodes ASCII text. *)
Lemma stream_encodes_below (enc : N -> bool) (s : pystr) :
  Forall (fun c => (c < 128)%N) s -> stream_encodes enc s = true.
Proof.
  unfold stream_encodes.
  induction 1 as [|c s Hc _ IH]; [reflexivity|].
  cbn [forallb]. rewrite IH. unfold stream_accepts.
  apply N.ltb_lt in Hc. now rewrite Hc.
Qed.

(** The prefix is ASCII: the stream encodes the result of [process_data]
    exactly when it encodes the uppercased text. *)
Lemma stream_encodes_prefix (enc : N -> bool) (t : pystr) :
  stream_encodes enc (lit "Processed: " ++ t) = stream_encodes enc t.
Proof. reflexivity. Qed.

Lemma stream_encodes_usage (enc : N -> bool) :
  stream_encodes enc usage_message = true.
Proof. reflexivity. Qed.

Lemma print_ok (enc : N -> bool) (v : value) (n : pystr) (argv : list pystr)
      (out : pystr) (cs : list value) :
  stream_encodes enc (py_str v) = true ->
  run (print enc v) (mkWorld n argv out cs)
  = (Ok tt, mkWorld n argv (out ++ py_str v ++ [LF]) cs).
Proof.
  intros H. unfold run, print, stream_write.
  cbn [bind Monad_py py_bind]. rewrite H.
  cbn. now rewrite <- app_assoc.
Qed.

(** A text the stream cannot encode: [print] raises and writes nothing,
    not even the line terminator. *)
Lemma print_fail (enc : N -> bool) (v : value) (w : world) :
  stream_encodes enc (py_str v) = false ->
  run (print enc v) w = (Raise UnicodeEncodeError, w).
Proof.
  intros H. unfold run, print, stream_write.
  cbn [bind Monad_py py_bind]. now rewrite H.
Qed.

Section HelperFacts.

Variable tbl : N -> list N.
Variable enc : N -> bool.

(** ** The transformer *)

(** On ASCII text [str.upper] works code point by code point and does not
    consult the host database. *)
Lemma str_upper_ascii (s : pystr) :
  Forall (fun c => (c < 128)%N) s -> str_upper tbl s = map ascii_toupper s.
Proof.
  induction 1 as [|c s Hc _ IH]; [reflexivity|].
  unfold str_upper in *. cbn [flat_map map]. rewrite IH.
  unfold to_upper_full. apply N.ltb_lt in Hc. now rewrite Hc.
Qed.

Lemma str_upper_ascii_no_LF (s : pystr) :
  Forall (fun c => (c < 128)%N) s -> ~ In LF s -> ~ In LF (str_upper tbl s).
Proof.
  intros Hs Hn Hin. rewrite (str_upper_ascii s Hs) in Hin.
  apply in_map_iff in Hin. destruct Hin as [c [Hc Hin]].
  apply ascii_toupper_LF in Hc. subst c. contradiction.
Qed.

(** Uppercased ASCII text is ASCII, so every stream encodes it. *)
Lemma str_upper_ascii_encodes (s : pystr) :
  Forall (fun c => (c < 128)%N) s -> stream_encodes enc (str_upper tbl s) = true.
Proof.
  intros H. rewrite (str_upper_ascii s H).
  apply stream_encodes_below. now apply map_toupper_isascii.
Qed.

Lemma process_data_text (s : pystr) (w : world) :
  run (process_data tbl (VStr s)) w
  = (Ok (VStr (lit "Processed: " ++ str_upper tbl s)), w).
Proof. reflexivity. Qed.

(** Whatever the argument, the body leaves the world as it found it. *)
Lemma process_data_world (v : value) (w : world) :
  snd (run (process_data tbl v) w) = w.
Proof. destruct v; reflexivity. Qed.

(** Whatever the argument, the outcome does not depend on the world. *)
Lemma process_data_outcome (v : value) (w1 w2 : world) :
  fst (run (process_data tbl v) w1) = fst (run (process_data tbl v) w2).
Proof. destruct v; reflexivity. Qed.

(** ** The guarded block *)

(** The block up to its [print], on a vector that holds a first positional
    argument: [process_data] has been entered with it. *)
Lemma main_block_prints (n x a : pystr) (rest : list pystr) (out : pystr)
      (cs : list value) :
  run (main_block tbl enc) (mkWorld n (x :: a :: rest) out cs)
  = run (print enc (VStr (lit "Processed: " ++ str_upper tbl a)))
        (mkWorld n (x :: a :: rest) out (cs ++ [VStr a])).
Proof.
  unfold run, main_block. cbn [bind ret Monad_py py_bind get_sys_argv sys_argv].
  rewrite py_len_long.
  reflexivity.
Qed.

(** The block on a first positional argument whose uppercased form the
    stream encodes. *)
Lemma main_block_with_arg (n x a : pystr) (rest : list pystr) (out : pystr)
      (cs : list value) :
  stream_encodes enc (str_upper tbl a) = true ->
  run (main_block tbl enc) (mkWorld n (x :: a :: rest) out cs)
  = (Ok tt, mkWorld n (x :: a :: rest)
                    (out ++ (lit "Processed: " ++ str_upper tbl a) ++ [LF])
                    (cs ++ [VStr a])).
Proof.
  intros H. rewrite main_block_prints.
  now rewrite print_ok by (cbn [py_str]; now rewrite stream_encodes_prefix).
Qed.

(** The block on a first positional argument whose uppercased form the
    stream cannot encode: the call is made, nothing is written. *)
Lemma main_block_unencodable (n x a : pystr) (rest : list pystr) (out : pystr)
      (cs : list value) :
  stream_encodes enc (str_upper tbl a) = false ->
  run (main_block tbl enc) (mkWorld n (x :: a :: rest) out cs)
  = (Raise UnicodeEncodeError, mkWorld n (x :: a :: rest) out (cs ++ [VStr a])).
Proof.
  intros H. rewrite main_block_prints.
  now rewrite print_fail by (cbn [py_str]; now rewrite stream_encodes_prefix).
Qed.

(** The block on a vector without positional argument. *)
Lemma main_block_without_arg (n : pystr) (argv : list pystr) (out : pystr)
      (cs : list value) :
  tl argv = [] ->
  run (main_block tbl enc) (mkWorld n argv out cs)
  = (Ok tt, mkWorld n argv (out ++ usage_message ++ [LF]) cs).
Proof.
  intros H.
  unfold run, main_block. cbn [bind ret Monad_py py_bind get_sys_argv sys_argv].
  rewrite (py_len_short argv H).
  apply (print_ok enc (VStr usage_message)). apply stream_encodes_usage.
Qed.

Lemma module_body_main (argv : list pystr) :
  run (module_body tbl enc) (standalone argv)
  = run (main_block tbl enc) (standalone argv).
Proof. reflexivity. Qed.

(** Loaded under another name, the module writes and calls nothing. *)
Lemma module_body_imported (w : world) :
  dunder_name w <> lit "__main__" -> run (module_body tbl enc) w = (Ok tt, w).
Proof.
  intros H. unfold run, module_body.
  cbn [bind ret Monad_py py_bind get_dunder_name].
  now rewrite (pystr_eqb_neq _ _ H).
Qed.

(** A positional argument in ASCII without a line feed gives one line. *)
Lemma one_line_for_plain_argument (argv0 a : pystr) (rest : list pystr) :
  Forall (fun c => (c < 128)%N) a -> ~ In LF a ->
  count_lines (stdout (snd (run (module_body tbl enc)
                                (standalone (argv0 :: a :: rest)))))
  = 1.
Proof.
  intros Ha Hn. rewrite module_body_main. unfold standalone.
  rewrite main_block_with_arg by now apply str_upper_ascii_encodes.
  cbn [snd stdout app].
  rewrite !count_lines_app.
  rewrite (count_lines_no_LF (str_upper tbl a)) by now apply str_upper_ascii_no_LF.
  reflexivity.
Qed.

End HelperFacts.

(** ** The specification's statements *)

Section Claims.

Variable tbl : N -> list N.
Variable enc : N -> bool.

(** C1: for every text input [s], [process_data] returns exactly the
    literal prefix "Processed: " followed by the uppercased form of [s],
    the uppercasing being the host's [str.upper] (here over an arbitrary
    host database [tbl]); it returns normally and leaves the world as it
    was. *)
Theorem C1_process_data_prefix_upper (s : pystr) (w : world) :
  run (process_data tbl (VStr s)) w
  = (Ok (VStr (lit "Processed: " ++ str_upper tbl s)), w).
Proof. apply process_data_text. Qed.

(** C2, amended: run as a program with at least one positional argument
    [a], the script enters [process_data] once, with [a]; when standard
    output can encode what it returns, that text is written followed by a
    line terminator and the run ends normally; when it cannot, [print]
    raises [UnicodeEncodeError] and nothing is written.  With the single
    argument "hello" the output is "Processed: HELLO" and the terminator,
    on every stream. *)
Theorem C2_main_prints_transformed (argv0 a : pystr) (rest : list pystr) :
  (exists r : value,
      fst (run (process_data tbl (VStr a)) (standalone (argv0 :: a :: rest))) = Ok r
      /\ run (module_body tbl enc) (standalone (argv0 :: a :: rest))
         = if stream_encodes enc (py_str r)
           then (Ok tt, mkWorld (lit "__main__") (argv0 :: a :: rest)
                                (py_str r ++ [LF]) [VStr a])
           else (Raise UnicodeEncodeError,
                 mkWorld (lit "__main__") (argv0 :: a :: rest) [] [VStr a]))
  /\ stdout (snd (run (module_body tbl enc) (standalone [argv0; lit "hello"])))
     = lit "Processed: HELLO" ++ [LF].
Proof.
  split.
  - exists (VStr (lit "Processed: " ++ str_upper tbl a)). split.
    + now rewrite process_data_text.
    + rewrite module_body_main. unfold standalone.
      cbn [py_str]. rewrite stream_encodes_prefix.
      destruct (stream_encodes enc (str_upper tbl a)) eqn:E.
      * now rewrite main_block_with_arg.
      * now rewrite main_block_unencodable.
  - rewrite module_body_main. unfold standalone.
    now rewrite main_block_with_arg.
Qed.

(** C3: run as a program with no positional argument, the script writes
    the fixed usage message (and a line terminator) to standard output and
    does not enter [process_data]: the call log stays empty. *)
Theorem C3_main_prints_usage (argv0 : pystr) :
  run (module_body tbl enc) (standalone [argv0])
  = (Ok tt, mkWorld (lit "__main__") [argv0]
                    (lit "Usage: python helper.py <input_text>" ++ [LF]) []).
Proof.
  rewrite module_body_main. unfold standalone.
  now rewrite main_block_without_arg.
Qed.

(** C4: on the empty text [process_data] returns exactly the prefix
    "Processed: "; the empty text is accepted like any other. *)
Theorem C4_process_data_empty (w : world) :
  run (process_data tbl (VStr (lit ""))) w = (Ok (VStr (lit "Processed: ")), w).
Proof. reflexivity. Qed.

(** C5: for every text input [process_data] returns a text and never
    raises, whatever the text (nothing is validated or rejected); and a
    run of the program without positional argument ends normally after
    writing the usage message. *)
Theorem C5_no_failure_mode :
  (forall (s : pystr) (w : world),
      exists t : pystr, run (process_data tbl (VStr s)) w = (Ok (VStr t), w))
  /\ (forall argv0 : pystr,
         fst (run (module_body tbl enc) (standalone [argv0])) = Ok tt
         /\ stdout (snd (run (module_body tbl enc) (standalone [argv0])))
            = usage_message ++ [LF]).
Proof.
  split.
  - intros s w. eexists. apply process_data_text.
  - intros argv0. rewrite module_body_main; unfold standalone.
    rewrite main_block_without_arg by reflexivity. now split.
Qed.

(** C6: [process_data] is pure: run on the same argument in any two
    worlds it ends in the same outcome, and it leaves the world it ran in
    unchanged (nothing written, no state touched). *)
Theorem C6_process_data_pure (v : value) (w1 w2 : world) :
  fst (run (process_data tbl v) w1) = fst (run (process_data tbl v) w2)
  /\ snd (run (process_data tbl v) w1) = w1.
Proof.
  split.
  - apply process_data_outcome.
  - apply process_data_world.
Qed.

(** C7, amended: the exit status is 0 on every run without positional
    argument, and on a run with one exactly when standard output can
    encode the uppercased first argument; otherwise the uncaught
    [UnicodeEncodeError] of [print] ends the program with status 1. *)
Theorem C7_exit_status_by_encoding (argv : list pystr) :
  exit_status (fst (run (module_body tbl enc) (standalone argv)))
  = match nth_error argv 1 with
    | Some a => if stream_encodes enc (str_upper tbl a) then 0%Z else 1%Z
    | None => 0%Z
    end.
Proof.
  rewrite module_body_main. unfold standalone.
  destruct argv as [|x [|a rest]]; cbn [nth_error].
  - now rewrite main_block_without_arg.
  - now rewrite main_block_without_arg.
  - destruct (stream_encodes enc (str_upper tbl a)) eqn:E.
    + now rewrite main_block_with_arg.
    + now rewrite main_block_unencodable.
Qed.

(** C8: with two or more positional arguments only the first is
    processed: [process_data] is entered with it alone, and the outcome,
    the output and the call log are those of the run with the first
    argument alone, whatever the further arguments. *)
Theorem C8_further_arguments_ignored (argv0 a b : pystr) (rest : list pystr) :
  let long := run (module_body tbl enc) (standalone (argv0 :: a :: b :: rest)) in
  let alone := run (module_body tbl enc) (standalone [argv0; a]) in
  fst long = fst alone
  /\ stdout (snd long) = stdout (snd alone)
  /\ calls (snd long) = calls (snd alone)
  /\ calls (snd long) = [VStr a].
Proof.
  cbv zeta. rewrite !module_body_main. unfold standalone.
  destruct (stream_encodes enc (str_upper tbl a)) eqn:E.
  - rewrite !main_block_with_arg by exact E. repeat split.
  - rewrite !main_block_unencodable by exact E. repeat split.
Qed.

(** C9: with a single positional argument that is the empty text, the
    branch for a present argument runs: [process_data] is entered with the
    empty text and "Processed: " is written, not the usage message. *)
Theorem C9_empty_argument_is_present (argv0 : pystr) :
  run (module_body tbl enc) (standalone [argv0; lit ""])
  = (Ok tt, mkWorld (lit "__main__") [argv0; lit ""]
                    (lit "Processed: " ++ [LF]) [VStr (lit "")])
  /\ lit "Processed: " ++ [LF] <> usage_message ++ [LF].
Proof.
  split.
  - rewrite module_body_main. unfold standalone.
    now rewrite main_block_with_arg.
  - discriminate.
Qed.

(** C10, amended: every run of the program prints one message, and only
    one: the usage message when there is no positional argument, the
    transformed first argument otherwise, never both (the two differ).
    When standard output can encode the message, the run ends normally,
    the message and one line terminator are written, and the number of
    lines written is one more than the number of line feeds inside the
    message; when it cannot, [print] raises and nothing is written.  The
    usage message is encodable on every stream and holds no line feed. *)
Theorem C10_one_print (argv : list pystr) :
  (exists msg : pystr,
      ((tl argv = [] /\ msg = usage_message)
       \/ (exists a : pystr,
              nth_error argv 1 = Some a
              /\ msg = lit "Processed: " ++ str_upper tbl a))
      /\ ((stream_encodes enc msg = true
           /\ fst (run (module_body tbl enc) (standalone argv)) = Ok tt
           /\ stdout (snd (run (module_body tbl enc) (standalone argv)))
              = msg ++ [LF]
           /\ count_lines (stdout (snd (run (module_body tbl enc) (standalone argv))))
              = S (count_lines msg))
          \/ (stream_encodes enc msg = false
              /\ fst (run (module_body tbl enc) (standalone argv))
                 = Raise UnicodeEncodeError
              /\ stdout (snd (run (module_body tbl enc) (standalone argv))) = [])))
  /\ (forall t : pystr, lit "Processed: " ++ t <> usage_message)
  /\ stream_encodes enc usage_message = true
  /\ count_lines usage_message = 0.
Proof.
  split; [| split; [intros t; discriminate | split; reflexivity]].
  rewrite module_body_main. unfold standalone.
  destruct argv as [|x [|a rest]].
  - exists usage_message. rewrite main_block_without_arg by reflexivity.
    cbn [fst snd stdout]. split; [now left | left].
    repeat split.
  - exists usage_message. rewrite main_block_without_arg by reflexivity.
    cbn [fst snd stdout]. split; [now left | left].
    repeat split.
  - exists (lit "Processed: " ++ str_upper tbl a).
    split; [right; now exists a |].
    rewrite stream_encodes_prefix.
    destruct (stream_encodes enc (str_upper tbl a)) eqn:E.
    + left. rewrite main_block_with_arg by exact E.
      cbn [fst snd stdout app]. repeat split.
      rewrite count_lines_app. cbn. lia.
    + right. rewrite main_block_unencodable by exact E.
      repeat split.
Qed.

End Claims.

(** C2, as stated, fails: byte 0xFF on the command line reaches the script
    as U+DCFF; [process_data] returns "Processed: " and U+DCFF, which a
    strict UTF-8 standard output cannot encode: [print] raises and the
    result is not written. *)
Lemma C2_unencodable_result_not_written :
  fst (run (process_data sample_unicode_upper (VStr [56575%N]))
           (standalone [lit "helper.py"; [56575%N]]))
  = Ok (VStr (lit "Processed: " ++ [56575%N]))
  /\ run (module_body sample_unicode_upper utf8_strict)
         (standalone [lit "helper.py"; [56575%N]])
     = (Raise UnicodeEncodeError,
        mkWorld (lit "__main__") [lit "helper.py"; [56575%N]] [] [VStr [56575%N]])
  /\ stdout (snd (run (module_body sample_unicode_upper utf8_strict)
                      (standalone [lit "helper.py"; [56575%N]])))
     <> (lit "Processed: " ++ [56575%N]) ++ [LF].
Proof. repeat split. discriminate. Qed.

(** C7, as stated, fails: with the argument U+DCFF and a strict UTF-8
    standard output the program ends on an uncaught exception, with exit
    status 1. *)
Lemma C7_unencodable_argument_exit_1 :
  exit_status (fst (run (module_body sample_unicode_upper utf8_strict)
                        (standalone [lit "helper.py"; [56575%N]])))
  = 1%Z
  /\ exit_status (fst (run (module_body sample_unicode_upper utf8_strict)
                           (standalone [lit "helper.py"; [56575%N]])))
     <> 0%Z.
Proof. split; [reflexivity | discriminate]. Qed.

(** C10, as stated, fails: with the positional argument "a", line feed,
    "b" the program writes two lines; and with the argument U+DCFF on a
    strict UTF-8 standard output it writes none. *)
Lemma C10_two_lines_written :
  stdout (snd (run (module_body sample_unicode_upper utf8_strict)
                   (standalone [lit "helper.py"; lit "a" ++ [LF] ++ lit "b"])))
  = lit "Processed: A" ++ [LF] ++ lit "B" ++ [LF]
  /\ count_lines
       (stdout (snd (run (module_body sample_unicode_upper utf8_strict)
                         (standalone [lit "helper.py"; lit "a" ++ [LF] ++ lit "b"]))))
     <> 1
  /\ count_lines
       (stdout (snd (run (module_body sample_unicode_upper utf8_strict)
                         (standalone [lit "helper.py"; [56575%N]]))))
     <> 1.
Proof. repeat split; vm_compute; discriminate. Qed.

(** ** Further properties of the script *)

Lemma str_isascii_Forall (s : pystr) :
  str_isascii s = true -> Forall (fun c => (c < 128)%N) s.
Proof.
  unfold str_isascii. intros H. apply Forall_forall. intros c Hc.
  apply N.ltb_lt. exact (proj1 (forallb_forall _ s) H c Hc).
Qed.

Lemma ascii_toupper_idem (c : N) : ascii_toupper (ascii_toupper c) = ascii_toupper c.
Proof.
  unfold ascii_toupper.
  destruct ((97 <=? c)%N && (c <=? 122)%N) eqn:E; [| now rewrite E].
  apply andb_true_iff in E. destruct E as [_ E]. apply N.leb_le in E.
  replace (97 <=? c - 32)%N with false; [reflexivity|].
  symmetry. apply N.leb_gt. lia.
Qed.

Lemma ascii_toupper_not_lower (c : N) : ascii_islower (ascii_toupper c) = false.
Proof.
  unfold ascii_islower, ascii_toupper.
  destruct (N.leb_spec 97 c); destruct (N.leb_spec c 122); cbn [andb].
  - apply andb_false_iff. left. apply N.leb_gt. lia.
  - apply andb_false_iff. right. apply N.leb_gt. lia.
  - apply andb_false_iff. left. apply N.leb_gt. lia.
  - apply andb_false_iff. left. apply N.leb_gt. lia.
Qed.


Lemma str_upper_app (tbl : N -> list N) (a b : pystr) :
  str_upper tbl (a ++ b) = str_upper tbl a ++ str_upper tbl b.
Proof. unfold str_upper. apply flat_map_app. Qed.

(** Uppercasing ASCII text a second time changes nothing. *)
Lemma str_upper_ascii_idem (tbl : N -> list N) (s : pystr) :
  Forall (fun c => (c < 128)%N) s ->
  str_upper tbl (str_upper tbl s) = str_upper tbl s.
Proof.
  intros H. rewrite (str_upper_ascii tbl s H).
  rewrite (str_upper_ascii tbl _ (map_toupper_isascii s H)).
  rewrite map_map. apply map_ext. apply ascii_toupper_idem.
Qed.

Section Extras.

Variable tbl : N -> list N.
Variable enc : N -> bool.

(** X1: loaded under a name other than "__main__" (an import), the module
    body runs nothing of the guarded block: it ends normally and the world,
    standard output and call log included, is exactly as before, whatever
    [sys.argv] holds. *)
Theorem X1_import_runs_nothing (w : world) :
  pystr_eqb (dunder_name w) (lit "__main__") = false ->
  run (module_body tbl enc) w = (Ok tt, w).
Proof.
  intros H. unfold run, module_body.
  cbn [bind ret Monad_py py_bind get_dunder_name].
  now rewrite H.
Qed.

(** X2: in any world the module body leaves [__name__] and [sys.argv] as
    they were and only appends to standard output and to the call log:
    what was there before stays in front, and the outcome and what is
    appended are those of a run from an empty output and log. *)
Theorem X2_module_body_appends (n : pystr) (argv : list pystr) (out : pystr)
        (cs : list value) :
  run (module_body tbl enc) (mkWorld n argv out cs)
  = (fst (run (module_body tbl enc) (mkWorld n argv [] [])),
     mkWorld n argv
       (out ++ stdout (snd (run (module_body tbl enc) (mkWorld n argv [] []))))
       (cs ++ calls (snd (run (module_body tbl enc) (mkWorld n argv [] []))))).
Proof.
  unfold run, module_body.
  cbn [bind ret Monad_py py_bind get_dunder_name dunder_name].
  destruct (pystr_eqb n (lit "__main__")).
  - fold (run (main_block tbl enc) (mkWorld n argv out cs)).
    fold (run (main_block tbl enc) (mkWorld n argv [] [])).
    destruct argv as [|x [|a rest]].
    + rewrite !main_block_without_arg by reflexivity.
      cbn [fst snd stdout calls app]. now rewrite app_nil_r.
    + rewrite !main_block_without_arg by reflexivity.
      cbn [fst snd stdout calls app]. now rewrite app_nil_r.
    + destruct (stream_encodes enc (str_upper tbl a)) eqn:E.
      * rewrite !main_block_with_arg by exact E. reflexivity.
      * rewrite !main_block_unencodable by exact E.
        cbn [fst snd stdout calls app]. now rewrite app_nil_r.
  - cbn [py_ret fst snd stdout calls]. now rewrite !app_nil_r.
Qed.

(** X3: on ASCII text the result is the prefix followed by the text with
    each of "a" to "z" replaced by its capital: the host database is not
    consulted, the transformed part is as long as the input and holds no
    lowercase ASCII letter. *)
Theorem X3_process_data_ascii (s : pystr) (w : world) :
  str_isascii s = true ->
  exists u : pystr,
    run (process_data tbl (VStr s)) w = (Ok (VStr (lit "Processed: " ++ u)), w)
    /\ u = map ascii_toupper s
    /\ List.length u = List.length s
    /\ existsb ascii_islower u = false.
Proof.
  intros H. apply str_isascii_Forall in H.
  exists (map ascii_toupper s). repeat split.
  - rewrite process_data_text. now rewrite str_upper_ascii.
  - apply length_map.
  - clear H. induction s as [|c s IH]; [reflexivity|].
    cbn [map existsb]. now rewrite ascii_toupper_not_lower.
Qed.

(** X4: feeding the result of [process_data] on an ASCII text back into
    [process_data] uppercases the first prefix and adds a second one:
    the outcome is "Processed: PROCESSED: " followed by the uppercased
    text, and the world is untouched. *)
Theorem X4_process_data_twice (s : pystr) (w : world) :
  str_isascii s = true ->
  run (r <- process_data tbl (VStr s) ;; process_data tbl r) w
  = (Ok (VStr (lit "Processed: PROCESSED: " ++ str_upper tbl s)), w).
Proof.
  intros H. apply str_isascii_Forall in H.
  change (run (r <- process_data tbl (VStr s) ;; process_data tbl r) w)
    with (run (process_data tbl (VStr (lit "Processed: " ++ str_upper tbl s))) w).
  rewrite process_data_text, str_upper_app, (str_upper_ascii_idem tbl s H).
  reflexivity.
Qed.


(** X6: the transformation works piece by piece: the result for a text
    [a ++ b] is the result for [a] followed by the uppercased [b]. *)
Theorem X6_process_data_concat (a b : pystr) (w : world) :
  exists ra : pystr,
    run (process_data tbl (VStr a)) w = (Ok (VStr ra), w)
    /\ run (process_data tbl (VStr (a ++ b))) w
       = (Ok (VStr (ra ++ str_upper tbl b)), w).
Proof.
  exists (lit "Processed: " ++ str_upper tbl a). split.
  - apply process_data_text.
  - rewrite process_data_text, str_upper_app. now rewrite app_assoc.
Qed.

(** X7: [process_data] does not tell letter case apart: two ASCII texts
    give the same result exactly when they are equal once "a" to "z" are
    capitalised. *)
Theorem X7_process_data_case_blind (s1 s2 : pystr) (w : world) :
  str_isascii s1 = true ->
  str_isascii s2 = true ->
  (run (process_data tbl (VStr s1)) w = run (process_data tbl (VStr s2)) w
   <-> map ascii_toupper s1 = map ascii_toupper s2).
Proof.
  intros H1 H2. apply str_isascii_Forall in H1. apply str_isascii_Forall in H2.
  rewrite !process_data_text, (str_upper_ascii tbl s1 H1), (str_upper_ascii tbl s2 H2).
  split.
  - intros E. injection E as E. exact E.
  - intros E. now rewrite E.
Qed.

End Extras.

(** The import of the module by a program run with one argument. *)
Lemma X1_import_runs_nothing_witness :
  pystr_eqb (lit "helper") (lit "__main__") = false
  /\ run (module_body sample_unicode_upper utf8_strict)
         (mkWorld (lit "helper") [lit "prog"; lit "x"] (lit "before") [])
     = (Ok tt, mkWorld (lit "helper") [lit "prog"; lit "x"] (lit "before") []).
Proof.
  split; [reflexivity |].
  apply (X1_import_runs_nothing sample_unicode_upper utf8_strict
           (mkWorld (lit "helper") [lit "prog"; lit "x"] (lit "before") [])).
  reflexivity.
Defined.

Lemma X3_process_data_ascii_witness :
  str_isascii (lit "MiXeD123") = true
  /\ exists u : pystr,
       run (process_data sample_unicode_upper (VStr (lit "MiXeD123"))) (standalone [])
       = (Ok (VStr (lit "Processed: " ++ u)), standalone [])
       /\ u = map ascii_toupper (lit "MiXeD123")
       /\ List.length u = List.length (lit "MiXeD123")
       /\ existsb ascii_islower u = false.
Proof.
  split; [reflexivity |].
  apply (X3_process_data_ascii sample_unicode_upper (lit "MiXeD123") (standalone [])).
  reflexivity.
Defined.

Lemma X4_process_data_twice_witness :
  str_isascii (lit "abc") = true
  /\ run (r <- process_data sample_unicode_upper (VStr (lit "abc")) ;;
          process_data sample_unicode_upper r) (standalone [])
     = (Ok (VStr (lit "Processed: PROCESSED: "
                  ++ str_upper sample_unicode_upper (lit "abc"))), standalone []).
Proof.
  split; [reflexivity |].
  apply (X4_process_data_twice sample_unicode_upper (lit "abc") (standalone [])).
  reflexivity.
Defined.


Lemma X7_process_data_case_blind_witness :
  str_isascii (lit "Hello") = true
  /\ str_isascii (lit "hELLO") = true
  /\ (run (process_data sample_unicode_upper (VStr (lit "Hello"))) (standalone [])
      = run (process_data sample_unicode_upper (VStr (lit "hELLO"))) (standalone [])
      <-> map ascii_toupper (lit "Hello") = map ascii_toupper (lit "hELLO")).
Proof.
  split; [reflexivity | split; [reflexivity |]].
  apply (X7_process_data_case_blind sample_unicode_upper (lit "Hello") (lit "hELLO")
           (standalone [])); reflexivity.
Defined.
